(** * take_screenshot.py: the dashboard snapshot script

    The script is one coroutine, [run], that drives a headless browser
    through the Playwright API, and one top-level statement,
    [asyncio.run(run())].  Every effect of the script is an awaited call
    of that API, so the embedding is a small trace-and-exception monad
    over an arbitrary environment that answers the calls: the
    environment sees the whole history of the run and either returns a
    value of the call's type or raises. *)

From Stdlib Require Import String ZArith List Bool Lia.
Import ListNotations.
Open Scope string_scope.
Open Scope list_scope.

(** ** The automation API, as the script uses it *)

Module Api.

(** Objects handed out by the library; the number is their identity. *)
Inductive playwright := Playwright (id : nat).
Inductive browser := Browser (id : nat).
Inductive page := Page (id : nat).
Inductive element_handle := ElementHandle (id : nat).

(** Exceptions.  Playwright raises [TimeoutError] when a wait expires and
    [Error] for its other failures; anything else is [OtherException]. *)
Inductive exn :=
| TimeoutError (message : string)
| Error (message : string)
| OtherException (message : string).

(** The awaited calls.  A keyword parameter the caller may leave out is an
    [option]: [None] is the parameter left at its default, which is how the
    library's own signatures declare them ([full_page: Optional[bool] = None]
    and so on). *)
Inductive call :=
| aenter                                          (* async_playwright().__aenter__() *)
| launch (p : playwright) (headless : option bool)   (* p.chromium.launch(...) *)
| new_page (b : browser)
| goto (pg : page) (url : string)
| wait_for_selector (pg : page) (selector : string) (timeout : option Z)
| query_selector (pg : page) (selector : string)
| fill (pg : page) (selector value : string)
| click (h : element_handle)
| wait_for_timeout (pg : page) (timeout : Z)
| screenshot (pg : page) (path : option string) (full_page : option bool)
| close (b : browser)
| aexit (p : playwright).                         (* __aexit__ of the same manager *)

(** What a call returns when it does not raise.  The script discards the
    results of [goto], [wait_for_selector] and [screenshot], so they are
    [unit] here; [query_selector] returns the handle or Python's [None]. *)
Definition ret_ty (c : call) : Type :=
  match c with
  | aenter => playwright
  | launch _ _ => browser
  | new_page _ => page
  | query_selector _ _ => option element_handle
  | _ => unit
  end.

Definition outcome (T : Type) : Type := (exn + T)%type.

(** One step of a run: the call and what came back. *)
Definition event : Type := { c : call & outcome (ret_ty c) }.
Definition ev (c : call) (o : outcome (ret_ty c)) : event := existT _ c o.
Definition trace := list event.

(** The environment: browser, page and server together.  It answers a call
    knowing everything that happened before. *)
Definition env : Type := trace -> forall c : call, outcome (ret_ty c).

Definition ev_call (x : event) : call := projT1 x.

Definition ev_exn (x : event) : option exn :=
  match projT2 x with inl err => Some err | inr _ => None end.

Definition succeeded (x : event) : bool :=
  match ev_exn x with Some _ => false | None => true end.

Definition calls (t : trace) : list call := map ev_call t.

(** Playwright's documented default: [full_page] is false unless passed as
    true, and then the capture is the viewport, not the scrollable page. *)
Definition captures_full_page (full_page : option bool) : bool :=
  match full_page with Some b => b | None => false end.

(** The files a trace wrote.  The only call of the script that touches the
    file system is a [screenshot] given a [path]; it writes when it
    returns. *)
Definition file_of (x : event) : list string :=
  match ev_call x with
  | screenshot _ (Some path) _ => if succeeded x then [path] else []
  | _ => []
  end.

Definition files_written (t : trace) : list string := flat_map file_of t.

(** Recognisers of calls, for counting them in a trace. *)
Definition is_goto (c : call) : bool :=
  match c with goto _ _ => true | _ => false end.
Definition is_pause (c : call) : bool :=
  match c with wait_for_timeout _ _ => true | _ => false end.
Definition is_screenshot (c : call) : bool :=
  match c with screenshot _ _ _ => true | _ => false end.
Definition is_close (c : call) : bool :=
  match c with close _ => true | _ => false end.
Definition is_aexit (c : call) : bool :=
  match c with aexit _ => true | _ => false end.
Definition is_fill (c : call) : bool :=
  match c with fill _ _ _ => true | _ => false end.
Definition is_click (c : call) : bool :=
  match c with click _ => true | _ => false end.
Definition is_query_selector (c : call) : bool :=
  match c with query_selector _ _ => true | _ => false end.
Definition is_wait_for (sel : string) (c : call) : bool :=
  match c with wait_for_selector _ s _ => String.eqb s sel | _ => false end.

Definition count (f : call -> bool) (t : trace) : nat :=
  length (filter f (calls t)).

End Api.
Import Api.

(** ** The coroutine monad: environment, trace, exception *)

Definition M (A : Type) : Type := env -> trace -> trace * outcome A.

Definition ret {A} (a : A) : M A := fun _ t => (t, inr a).

Definition bind {A B} (m : M A) (k : A -> M B) : M B :=
  fun e t =>
    match m e t with
    | (t1, inl err) => (t1, inl err)
    | (t1, inr a) => k a e t1
    end.

(** [await c]: ask the environment, log the step, return or raise. *)
Definition await (c : call) : M (ret_ty c) :=
  fun e t => let o := e t c in (t ++ [ev c o], o).

Declare Scope coro_scope.
Delimit Scope coro_scope with coro.
Notation "x <- m ;; k" := (bind m (fun x => k))
  (at level 61, m at next level, right associativity) : coro_scope.
Notation "m ;; k" := (bind m (fun _ => k))
  (at level 61, right associativity) : coro_scope.
Open Scope coro_scope.

(** [async with async_playwright() as p: body].  If [__aenter__] raises, the
    body and [__aexit__] do not run.  Otherwise [__aexit__] is awaited once
    when the body is left, whether it returned or raised.  Playwright's
    [__aexit__] returns [None], so it never swallows the exception in
    flight: when it returns, the body's outcome is the outcome of the
    statement; when it raises, its exception leaves the statement in place
    of whatever the body did. *)
Definition async_with_playwright {A} (body : playwright -> M A) : M A :=
  fun e t =>
    match await aenter e t with
    | (t1, inl err) => (t1, inl err)
    | (t1, inr p) =>
        let '(t2, r) := body p e t1 in
        match await (aexit p) e t2 with
        | (t3, inl err) => (t3, inl err)
        | (t3, inr _) => (t3, r)
        end
    end.

(** ** The script *)

Definition url : string := "http://localhost:3001".
Definition dashboard_marker : string := "text=Admin Dashboard".
Definition login_button : string := "button:has-text('Access Dashboard')".
Definition admin_id_input : string := "input[placeholder='Admin ID']".
Definition password_input : string := "input[placeholder='Password']".
Definition auth_marker : string := "text=Total Requests".
Definition screenshot_path : string :=
  "C:\Users\Sazid\.gemini\antigravity\brain\41001d6e-5fca-4311-9d29-e0a7cb00349e\manual_screenshot.png".

(** [async def run()], line for line. *)
Definition run : M unit :=
  async_with_playwright (fun p =>
    browser <- await (launch p (Some true)) ;;
    page <- await (new_page browser) ;;
    await (goto page url) ;;
    await (wait_for_selector page dashboard_marker (Some 10000%Z)) ;;
    login_btn <- await (query_selector page login_button) ;;
    match login_btn with
    | Some btn =>
        await (fill page admin_id_input "admin1") ;;
        await (fill page password_input "password123") ;;
        await (click btn) ;;
        await (wait_for_selector page auth_marker (Some 10000%Z))
    | None => ret tt
    end ;;
    await (wait_for_timeout page 2000%Z) ;;
    await (screenshot page (Some screenshot_path) None) ;;
    await (close browser)).

(** [asyncio.run(run())] at module level: the interpreter exits with status
    0 when the coroutine returns and with status 1, after printing the
    traceback, when an exception leaves it. *)
Definition run_trace (e : env) : trace := fst (run e []).
Definition run_result (e : env) : outcome unit := snd (run e []).

Definition main (e : env) : Z :=
  match run_result e with
  | inr _ => 0%Z
  | inl _ => 1%Z
  end.

(** ** Sample environments *)

(** The value an environment hands back when a call goes through: fixed
    object identities, and [btn] as the answer of every [query_selector]. *)
Definition answer (btn : option element_handle) (c : call) : ret_ty c :=
  match c return ret_ty c with
  | aenter => Playwright 0
  | launch _ _ => Browser 1
  | new_page _ => Page 2
  | query_selector _ _ => btn
  | _ => tt
  end.

(** Every call goes through. *)
Definition working (btn : option element_handle) : env :=
  fun _ c => inr (answer btn c).

(** Every call goes through except those picked by [f], which raise [err]. *)
Definition failing (f : call -> bool) (err : exn)
    (btn : option element_handle) : env :=
  fun _ c => if f c then inl err else inr (answer btn c).

(** Every call goes through except those for which [f] gives an
    exception; different calls may raise different exceptions. *)
Definition raising (f : call -> option exn)
    (btn : option element_handle) : env :=
  fun _ c => match f c with
             | Some err => inl err
             | None => inr (answer btn c)
             end.

(** ** Observations on a run *)

(** Call [c] was made and raised [err]. *)
Definition raised_at (t : trace) (c : call) (err : exn) : Prop :=
  exists x, In x t /\ ev_call x = c /\ ev_exn x = Some err.

(** Call [c] was made and returned. *)
Definition returned_at (t : trace) (c : call) : Prop :=
  exists x, In x t /\ ev_call x = c /\ ev_exn x = None.

(** The exit of the Playwright scope was made and raised [err]; was made
    and returned. *)
Definition exit_raised (t : trace) (err : exn) : Prop :=
  exists p, raised_at t (aexit p) err.

Definition exit_returned (t : trace) : Prop :=
  exists p, returned_at t (aexit p).

(** What a [query_selector] step found: [Some r] when the step is a
    [query_selector] that returned [r] (a handle or Python's [None]). *)
Definition probe_answer (x : event) : option (option element_handle) :=
  let (c, o) := x in
  match c return outcome (ret_ty c) -> option (option element_handle) with
  | query_selector _ _ =>
      fun o => match o with inr r => Some r | inl _ => None end
  | _ => fun _ => None
  end o.

(** The probe for the login button on [pg] was made and returned [r]. *)
Definition probed (t : trace) (pg : page) (r : option element_handle) : Prop :=
  exists x, In x t /\ ev_call x = query_selector pg login_button
            /\ probe_answer x = Some r.

(** The call sequences the theorems speak about. *)
Definition prologue (p : playwright) (b : browser) (pg : page) : list call :=
  [ aenter; launch p (Some true); new_page b; goto pg url;
    wait_for_selector pg dashboard_marker (Some 10000%Z);
    query_selector pg login_button ].

Definition login_steps (pg : page) (btn : element_handle) : list call :=
  [ fill pg admin_id_input "admin1"; fill pg password_input "password123";
    click btn; wait_for_selector pg auth_marker (Some 10000%Z) ].

Definition branch (pg : page) (r : option element_handle) : list call :=
  match r with Some btn => login_steps pg btn | None => [] end.

Definition pause (pg : page) : call := wait_for_timeout pg 2000%Z.
Definition capture (pg : page) : call :=
  screenshot pg (Some screenshot_path) None.

Definition full_page_of (c : call) : bool :=
  match c with screenshot _ _ fp => captures_full_page fp | _ => false end.

(** The error taxonomy of the specification (its section 7), by the step
    that fails: a launch failure, a navigation failure, a marker timeout or
    a capture failure.  No other step has a class there. *)
Inductive failure_class :=
| LaunchFailure | NavigationFailure | TimeoutFailure | CaptureFailure.

Definition spec_failure_class (c : call) : option failure_class :=
  match c with
  | launch _ _ => Some LaunchFailure
  | goto _ _ => Some NavigationFailure
  | wait_for_selector _ _ _ => Some TimeoutFailure
  | screenshot _ _ _ => Some CaptureFailure
  | _ => None
  end.

(** What the object-returning steps returned: the playwright object of
    [__aenter__], the browser of [launch], the page of [new_page]. *)
Definition entered (x : event) : option playwright :=
  let (c, o) := x in
  match c return outcome (ret_ty c) -> option playwright with
  | aenter => fun o => match o with inr p => Some p | inl _ => None end
  | _ => fun _ => None
  end o.

Definition launched (x : event) : option browser :=
  let (c, o) := x in
  match c return outcome (ret_ty c) -> option browser with
  | launch _ _ => fun o => match o with inr b => Some b | inl _ => None end
  | _ => fun _ => None
  end o.

Definition opened (x : event) : option page :=
  let (c, o) := x in
  match c return outcome (ret_ty c) -> option page with
  | new_page _ => fun o => match o with inr pg => Some pg | inl _ => None end
  | _ => fun _ => None
  end o.

(** The object a call is made on. *)
Definition playwright_of (c : call) : option playwright :=
  match c with launch p _ | aexit p => Some p | _ => None end.

Definition browser_of (c : call) : option browser :=
  match c with new_page b | close b => Some b | _ => None end.

Definition page_of (c : call) : option page :=
  match c with
  | goto pg _ | wait_for_selector pg _ _ | query_selector pg _
  | fill pg _ _ | wait_for_timeout pg _ | screenshot pg _ _ => Some pg
  | _ => None
  end.

Definition handle_of (c : call) : option element_handle :=
  match c with click h => Some h | _ => None end.

(** Every call the body of [run] contains, in program order. *)
Definition script_calls (p : playwright) (b : browser) (pg : page)
    (btn : element_handle) : list call :=
  prologue p b pg ++ login_steps pg btn ++
  [pause pg; capture pg; close b; aexit p].

Definition is_aenter (c : call) : bool :=
  match c with aenter => true | _ => false end.

Definition is_login_step (c : call) : bool :=
  is_fill c || is_click c || is_wait_for auth_marker c.

(** ** Case analysis of a run

    A run is decided by the answers of the environment, one after the
    other; [run_cases] follows them until the trace is explicit. *)

Ltac ask :=
  match goal with
  | |- context [?e ?h ?c] =>
      match type of e with env => idtac end;
      let o := fresh "o" in
      destruct (e h c) as [o|o]; cbn in o;
      try match type of o with unit => destruct o end; cbn
  | |- context [match ?r with Some _ => _ | None => _ end] =>
      is_var r; destruct r; cbn
  end.

Ltac run_cases :=
  unfold exit_raised, exit_returned, raised_at, returned_at, probed,
    count, calls,
    main, run_trace, run_result, run, async_with_playwright, bind, await, ret;
  cbn; repeat ask.

(** Splits a membership hypothesis over an explicit list. *)
Ltac pick_event H :=
  cbn in H;
  repeat (destruct H as [H|H]; [subst; cbn in *; try discriminate | ]);
  try contradiction.

(** Inverts [Some a = Some b] and the like left by a case. *)
Ltac same :=
  repeat match goal with
  | H : Some _ = Some _ |- _ => injection H as H; try subst
  | H : ?c = ?d |- _ =>
      match type of c with call => first [discriminate H | injection H as H; intros; subst] end
  end.

(** Picks an element of an explicit list, with backtracking. *)
Ltac member :=
  multimatch goal with
  | |- _ \/ _ => (left; reflexivity) + (right; member)
  end.

(** Names an event of an explicit trace by its call and outcome. *)
Ltac found := eexists; split; [member | split; reflexivity].



(** ** Four runs, evaluated *)

Example run_without_login :
  calls (run_trace (working None)) =
    [ aenter; launch (Playwright 0) (Some true); new_page (Browser 1);
      goto (Page 2) "http://localhost:3001";
      wait_for_selector (Page 2) "text=Admin Dashboard" (Some 10000%Z);
      query_selector (Page 2) "button:has-text('Access Dashboard')";
      wait_for_timeout (Page 2) 2000%Z;
      screenshot (Page 2) (Some screenshot_path) None;
      close (Browser 1); aexit (Playwright 0) ]
  /\ run_result (working None) = inr tt
  /\ main (working None) = 0%Z.
Proof. repeat split. Qed.

Example run_with_login :
  calls (run_trace (working (Some (ElementHandle 3)))) =
    [ aenter; launch (Playwright 0) (Some true); new_page (Browser 1);
      goto (Page 2) "http://localhost:3001";
      wait_for_selector (Page 2) "text=Admin Dashboard" (Some 10000%Z);
      query_selector (Page 2) "button:has-text('Access Dashboard')";
      fill (Page 2) "input[placeholder='Admin ID']" "admin1";
      fill (Page 2) "input[placeholder='Password']" "password123";
      click (ElementHandle 3);
      wait_for_selector (Page 2) "text=Total Requests" (Some 10000%Z);
      wait_for_timeout (Page 2) 2000%Z;
      screenshot (Page 2) (Some screenshot_path) None;
      close (Browser 1); aexit (Playwright 0) ]
  /\ run_result (working (Some (ElementHandle 3))) = inr tt.
Proof. repeat split. Qed.

Example run_with_launch_failure :
  let e := failing (fun c => match c with launch _ _ => true | _ => false end)
                   (Error "Executable doesn't exist") None in
  calls (run_trace e) = [aenter; launch (Playwright 0) (Some true); aexit (Playwright 0)]
  /\ run_result e = inl (Error "Executable doesn't exist")
  /\ main e = 1%Z.
Proof. repeat split. Qed.

Example run_with_exit_failure :
  let e := failing is_aexit (Error "Connection closed") None in
  calls (run_trace e) = calls (run_trace (working None))
  /\ run_result e = inl (Error "Connection closed")
  /\ main e = 1%Z
  /\ files_written (run_trace e) = [screenshot_path].
Proof. repeat split. Qed.

(** ** Failure propagation *)




(** ** Marker timeouts *)

(** C3, as stated, fails: the wait for "Admin Dashboard" times out and the
    exit of the Playwright scope raises in its turn; the run then ends with
    the exit's exception, not with the timeout error. *)
Lemma marker_timeout_error_refuted :
  let e := raising (fun c =>
                      if is_wait_for dashboard_marker c
                      then Some (TimeoutError "Timeout 10000ms exceeded.")
                      else if is_aexit c
                      then Some (Error "Connection closed")
                      else None) None in
  raised_at (run_trace e)
    (wait_for_selector (Page 2) dashboard_marker (Some 10000%Z))
    (TimeoutError "Timeout 10000ms exceeded.") /\
  run_result e = inl (Error "Connection closed") /\
  run_result e <> inl (TimeoutError "Timeout 10000ms exceeded.").
Proof.
  intros e. split.
  - exists (ev (wait_for_selector (Page 2) dashboard_marker (Some 10000%Z))
               (inl (TimeoutError "Timeout 10000ms exceeded."))).
    vm_compute. tauto.
  - split; [reflexivity | discriminate].
Qed.

(** C3, amended.  When a marker wait of the run expires (the wait for
    "Admin Dashboard", or in the login branch the wait for "Total
    Requests", each with its 10,000 ms limit), the run fails and the
    process exits with status 1: with that timeout error when the exit of
    the Playwright scope returns, with the exit's own exception when the
    exit raises.  The wait was made once only, and no screenshot call is
    made, so no file is written. *)
Theorem marker_timeout_fails (e : env) (pg : page) (sel msg : string) :
  raised_at (run_trace e) (wait_for_selector pg sel (Some 10000%Z))
            (TimeoutError msg) ->
  (sel = dashboard_marker \/ sel = auth_marker) /\
  main e = 1%Z /\
  (exit_returned (run_trace e) -> run_result e = inl (TimeoutError msg)) /\
  (forall err', exit_raised (run_trace e) err' -> run_result e = inl err') /\
  count (is_wait_for sel) (run_trace e) = 1 /\
  count is_screenshot (run_trace e) = 0 /\
  files_written (run_trace e) = [].
Proof.
  revert pg sel msg.
  run_cases; intros pg sel msg (x & H & Hc & Hx); pick_event H; same;
    (split; [auto|]); (split; [reflexivity|]);
    (split; [ intros (p & y & Hy & Hyc & Hye); pick_event Hy; same;
              reflexivity | ]);
    (split; [ intros err' (p & y & Hy & Hyc & Hye); pick_event Hy; same;
              reflexivity | ]);
    repeat split; reflexivity.
Qed.

Lemma marker_timeout_fails_witness :
  let never := TimeoutError "Timeout 10000ms exceeded." in
  let e1 := failing (is_wait_for dashboard_marker) never None in
  let e2 := failing (is_wait_for auth_marker) never (Some (ElementHandle 3)) in
  (run_result e1 = inl never /\ files_written (run_trace e1) = []) /\
  (run_result e2 = inl never /\ files_written (run_trace e2) = []).
Proof.
  intros never e1 e2. split.
  - assert (H : raised_at (run_trace e1)
                  (wait_for_selector (Page 2) dashboard_marker (Some 10000%Z))
                  (TimeoutError "Timeout 10000ms exceeded.")).
    { exists (ev (wait_for_selector (Page 2) dashboard_marker (Some 10000%Z))
                 (inl never)).
      vm_compute. tauto. }
    destruct (marker_timeout_fails e1 _ _ _ H) as (_ & _ & Hr & _ & _ & _ & Hf).
    split; [|exact Hf]. apply Hr.
    exists (Playwright 0), (ev (aexit (Playwright 0)) (inr tt)).
    vm_compute. tauto.
  - assert (H : raised_at (run_trace e2)
                  (wait_for_selector (Page 2) auth_marker (Some 10000%Z))
                  (TimeoutError "Timeout 10000ms exceeded.")).
    { exists (ev (wait_for_selector (Page 2) auth_marker (Some 10000%Z))
                 (inl never)).
      vm_compute. tauto. }
    destruct (marker_timeout_fails e2 _ _ _ H) as (_ & _ & Hr & _ & _ & _ & Hf).
    split; [|exact Hf]. apply Hr.
    exists (Playwright 0), (ev (aexit (Playwright 0)) (inr tt)).
    vm_compute. tauto.
Defined.

(** ** Release of the browser session *)

(** C1, as stated, fails: with the browser launched and the navigation
    refused, [browser.close()] is never called; the run only leaves the
    Playwright scope. *)
Lemma close_on_failure_refuted :
  let e := failing is_goto (Error "net::ERR_CONNECTION_REFUSED") None in
  returned_at (run_trace e) (launch (Playwright 0) (Some true)) /\
  run_result e = inl (Error "net::ERR_CONNECTION_REFUSED") /\
  count is_close (run_trace e) = 0 /\
  calls (run_trace e) =
    [ aenter; launch (Playwright 0) (Some true); new_page (Browser 1);
      goto (Page 2) url; aexit (Playwright 0) ].
Proof.
  intros e. split.
  - exists (ev (launch (Playwright 0) (Some true)) (inr (Browser 1))).
    vm_compute. tauto.
  - vm_compute. auto.
Qed.

(** C1, amended.  Once the browser is launched: [browser.close()] is called
    at most once; it is called exactly once when the run returns, and not
    at all when a step of the body before it (opening the page, navigation,
    marker wait, probe, fill, click, pause, screenshot) raises; on every
    path the Playwright scope is left exactly once, as the last step of the
    run. *)
Theorem session_release (e : env) (p : playwright) :
  returned_at (run_trace e) (launch p (Some true)) ->
  count is_close (run_trace e) <= 1 /\
  (run_result e = inr tt -> count is_close (run_trace e) = 1) /\
  (forall x err, In x (run_trace e) -> ev_exn x = Some err ->
                 is_close (ev_call x) = false ->
                 is_aexit (ev_call x) = false ->
                 count is_close (run_trace e) = 0) /\
  count is_aexit (run_trace e) = 1 /\
  last (calls (run_trace e)) aenter = aexit p.
Proof.
  revert p.
  run_cases; intros p (x & H & Hc & Hx); pick_event H; same;
    (split; [lia|]);
    (split; [intros Hr; first [reflexivity | discriminate Hr] | ]);
    (split; [ intros y err Hy Hy1 Hy2 Hy3; pick_event Hy; reflexivity
            | split; reflexivity ]).
Qed.

Lemma session_release_witness :
  let e := failing is_goto (Error "net::ERR_CONNECTION_REFUSED") None in
  count is_close (run_trace e) = 0 /\
  count is_aexit (run_trace e) = 1 /\
  last (calls (run_trace e)) aenter = aexit (Playwright 0).
Proof.
  intros e.
  destruct (session_release e (Playwright 0)) as (_ & _ & Hf & Ha & Hl).
  - exists (ev (launch (Playwright 0) (Some true)) (inr (Browser 1))).
    vm_compute. tauto.
  - split; [|split; [exact Ha | exact Hl]].
    apply (Hf (ev (goto (Page 2) url)
                  (inl (Error "net::ERR_CONNECTION_REFUSED")))
              (Error "net::ERR_CONNECTION_REFUSED")).
    + vm_compute. tauto.
    + reflexivity.
    + reflexivity.
    + reflexivity.
Defined.

(** ** Successful runs *)

(** A run that returns made the whole sequence of calls, on one page, with
    or without the login steps, and wrote the screenshot file. *)
Lemma successful_run_shape (e : env) :
  run_result e = inr tt ->
  exists p b pg r,
    calls (run_trace e) =
      prologue p b pg ++ branch pg r ++ [pause pg; capture pg; close b; aexit p] /\
    probed (run_trace e) pg r /\
    forallb succeeded (run_trace e) = true /\
    files_written (run_trace e) = [screenshot_path].
Proof.
  run_cases; intros H; try discriminate H;
    do 3 eexists;
    first [ exists None; split; [reflexivity | ]
          | eexists (Some _); split; [reflexivity | ] ];
    (split; [ eexists; split; [ do 5 right; left; reflexivity | split; reflexivity ]
            | split; reflexivity ]).
Qed.

(** C2, as stated, fails: in the run where every call goes through, the
    one screenshot call passes no [full_page] argument, so the capture is
    Playwright's default, the viewport. *)
Lemma full_page_capture_refuted :
  let e := working None in
  run_result e = inr tt /\
  filter is_screenshot (calls (run_trace e)) =
    [screenshot (Page 2) (Some screenshot_path) None] /\
  map full_page_of (filter is_screenshot (calls (run_trace e))) = [false].
Proof. vm_compute. auto. Qed.

(** C2, amended.  In every successful run the screenshot step is one call,
    on the page the run navigated and waited on, that passes the fixed path
    and leaves [full_page] at its default (a viewport capture), and the
    file at the fixed path is written. *)
Theorem viewport_capture (e : env) :
  run_result e = inr tt ->
  exists p b pg r,
    calls (run_trace e) =
      prologue p b pg ++ branch pg r ++ [pause pg; capture pg; close b; aexit p] /\
    filter is_screenshot (calls (run_trace e)) =
      [screenshot pg (Some screenshot_path) None] /\
    full_page_of (screenshot pg (Some screenshot_path) None) = false /\
    files_written (run_trace e) = [screenshot_path].
Proof.
  intros H. destruct (successful_run_shape e H) as (p & b & pg & r & Hc & _ & _ & Hf).
  exists p, b, pg, r. rewrite Hc. destruct r; repeat split; auto.
Qed.

Lemma viewport_capture_witness :
  exists p b pg r,
    calls (run_trace (working None)) =
      prologue p b pg ++ branch pg r ++ [pause pg; capture pg; close b; aexit p] /\
    filter is_screenshot (calls (run_trace (working None))) =
      [screenshot pg (Some screenshot_path) None] /\
    full_page_of (screenshot pg (Some screenshot_path) None) = false /\
    files_written (run_trace (working None)) = [screenshot_path].
Proof. apply (viewport_capture (working None)). reflexivity. Defined.

(** C10. In every successful run exactly one file is written, at the
    literal path below; every screenshot call of any run names that path,
    whatever the environment answers. *)
Theorem one_file_at_fixed_path (e : env) :
  run_result e = inr tt ->
  files_written (run_trace e) =
    ["C:\Users\Sazid\.gemini\antigravity\brain\41001d6e-5fca-4311-9d29-e0a7cb00349e\manual_screenshot.png"] /\
  length (files_written (run_trace e)) = 1 /\
  (forall e' x, In x (run_trace e') -> is_screenshot (ev_call x) = true ->
     exists pg, ev_call x = screenshot pg
       (Some "C:\Users\Sazid\.gemini\antigravity\brain\41001d6e-5fca-4311-9d29-e0a7cb00349e\manual_screenshot.png")
       None).
Proof.
  intros H. destruct (successful_run_shape e H) as (p & b & pg & r & _ & _ & _ & Hf).
  rewrite Hf. split; [reflexivity|]. split; [reflexivity|].
  clear. intros e'.
  run_cases; intros x H Hx; pick_event H; eexists; reflexivity.
Qed.

Lemma one_file_at_fixed_path_witness :
  files_written (run_trace (working (Some (ElementHandle 3)))) =
    ["C:\Users\Sazid\.gemini\antigravity\brain\41001d6e-5fca-4311-9d29-e0a7cb00349e\manual_screenshot.png"].
Proof.
  apply (one_file_at_fixed_path (working (Some (ElementHandle 3)))).
  reflexivity.
Defined.

(** C5, as stated, fails: the "Admin Dashboard" marker shows, the probe
    finds no login button, and the screenshot call raises; the run fails
    and no file is written. *)
Lemma no_login_run_refuted :
  let e := failing is_screenshot (Error "EACCES: permission denied") None in
  returned_at (run_trace e)
    (wait_for_selector (Page 2) dashboard_marker (Some 10000%Z)) /\
  probed (run_trace e) (Page 2) None /\
  run_result e = inl (Error "EACCES: permission denied") /\
  main e = 1%Z /\
  files_written (run_trace e) = [].
Proof.
  intros e. split.
  - exists (ev (wait_for_selector (Page 2) dashboard_marker (Some 10000%Z))
               (inr tt)).
    vm_compute. tauto.
  - split.
    + exists (ev (query_selector (Page 2) login_button) (inr None)).
      vm_compute. tauto.
    + vm_compute. auto.
Qed.

(** C5, amended.  In a run where the "Admin Dashboard" marker showed
    within its 10,000 ms and the probe found no login button, the run
    returns without error (exit status 0) exactly when the four steps left
    (the pause, the screenshot, the close and the scope exit) all return,
    and the screenshot file is written at the configured path exactly when
    the screenshot call returns; a run that returns made no login step. *)
Theorem no_login_run_completes (e : env) (pg : page) :
  returned_at (run_trace e)
    (wait_for_selector pg dashboard_marker (Some 10000%Z)) ->
  probed (run_trace e) pg None ->
  (run_result e = inr tt <->
   exists p b,
     returned_at (run_trace e) (pause pg) /\
     returned_at (run_trace e) (capture pg) /\
     returned_at (run_trace e) (close b) /\
     returned_at (run_trace e) (aexit p)) /\
  (main e = 0%Z <-> run_result e = inr tt) /\
  (files_written (run_trace e) = [screenshot_path] <->
   returned_at (run_trace e) (capture pg)) /\
  (run_result e = inr tt ->
   exists p b,
     calls (run_trace e) =
       prologue p b pg ++ [pause pg; capture pg; close b; aexit p]).
Proof.
  revert pg.
  run_cases; intros pg _ (x & H & Hc & Hx); pick_event H; same;
    (split; [ split;
              [ intros Hr; first [ discriminate Hr
                                 | do 2 eexists;
                                   (split; [found | split; [found | split; [found | found]]]) ]
              | intros (p & b & (y1 & H1 & H1c & H1e) & (y2 & H2 & H2c & H2e)
                          & (y3 & H3 & H3c & H3e) & (y4 & H4 & H4c & H4e));
                first [ reflexivity
                      | solve [pick_event H1; same]
                      | solve [pick_event H2; same]
                      | solve [pick_event H3; same]
                      | solve [pick_event H4; same] ] ] | ]);
    (split; [ split; intros Hr; first [reflexivity | discriminate Hr] | ]);
    (split; [ split;
              [ intros Hf; first [ discriminate Hf
                                 | found ]
              | intros (y & Hy & Hyc & Hye);
                first [ reflexivity | solve [pick_event Hy; same] ] ] | ]);
    intros Hr; first [ discriminate Hr | do 2 eexists; reflexivity ].
Qed.

Lemma no_login_run_completes_witness :
  run_result (working None) = inr tt /\ main (working None) = 0%Z /\
  files_written (run_trace (working None)) = [screenshot_path] /\
  exists p b,
    calls (run_trace (working None)) =
      prologue p b (Page 2) ++ [pause (Page 2); capture (Page 2); close b; aexit p].
Proof.
  destruct (no_login_run_completes (working None) (Page 2))
    as (Hr & Hm & Hf & Hc).
  - exists (ev (wait_for_selector (Page 2) dashboard_marker (Some 10000%Z))
               (inr tt)).
    vm_compute. tauto.
  - exists (ev (query_selector (Page 2) login_button) (inr None)).
    vm_compute. tauto.
  - assert (R : run_result (working None) = inr tt).
    { apply Hr. exists (Playwright 0), (Browser 1).
      repeat split;
        [ exists (ev (pause (Page 2)) (inr tt))
        | exists (ev (capture (Page 2)) (inr tt))
        | exists (ev (close (Browser 1)) (inr tt))
        | exists (ev (aexit (Playwright 0)) (inr tt)) ];
        vm_compute; tauto. }
    split; [exact R|]. split; [apply Hm; exact R|].
    split; [|apply Hc; exact R].
    apply Hf. exists (ev (capture (Page 2)) (inr tt)). vm_compute. tauto.
Defined.

(** ** The login branch *)

(** C6. The probe is one [query_selector] call, which takes no timeout and
    answers absence by returning [None]; when it does, the run goes on: it
    makes no fill, no click and no wait for "Total Requests", the call
    right after the probe is the fixed delay, and when the delay returns
    the call after it is the screenshot. *)
Theorem absent_login_skips_branch (e : env) (pg : page) :
  probed (run_trace e) pg None ->
  count is_query_selector (run_trace e) = 1 /\
  count is_fill (run_trace e) = 0 /\
  count is_click (run_trace e) = 0 /\
  count (is_wait_for auth_marker) (run_trace e) = 0 /\
  exists p b rest,
    calls (run_trace e) = prologue p b pg ++ wait_for_timeout pg 2000%Z :: rest /\
    (returned_at (run_trace e) (wait_for_timeout pg 2000%Z) ->
     exists rest', rest = screenshot pg (Some screenshot_path) None :: rest').
Proof.
  revert pg.
  run_cases; intros pg (x & H & Hc & Hx); pick_event H; same;
    do 4 (split; [reflexivity|]);
    do 3 eexists; (split; [reflexivity|]);
    intros (y & Hy & Hyc & Hye); pick_event Hy; same;
    eexists; reflexivity.
Qed.

Lemma absent_login_skips_branch_witness :
  count is_fill (run_trace (working None)) = 0 /\
  count is_click (run_trace (working None)) = 0 /\
  calls (run_trace (working None)) =
    prologue (Playwright 0) (Browser 1) (Page 2) ++
    [ wait_for_timeout (Page 2) 2000%Z;
      screenshot (Page 2) (Some screenshot_path) None;
      close (Browser 1); aexit (Playwright 0) ].
Proof.
  assert (H : probed (run_trace (working None)) (Page 2) None).
  { exists (ev (query_selector (Page 2) login_button) (inr None)).
    vm_compute. tauto. }
  destruct (absent_login_skips_branch (working None) (Page 2) H)
    as (_ & Hf & Hc & _).
  split; [exact Hf|]. split; [exact Hc|]. reflexivity.
Defined.

(** C7. In every run that reaches the screenshot call, the call just
    before it is [wait_for_timeout] with 2,000 ms, on the same page; it
    comes after the probe and, when the button was found, after the four
    login steps; it is the only pause of the run, and its sole argument is
    the duration. *)
Theorem pause_before_capture (e : env) (x : event) :
  In x (run_trace e) -> is_screenshot (ev_call x) = true ->
  exists p b pg r rest,
    calls (run_trace e) =
      prologue p b pg ++ branch pg r ++
      [wait_for_timeout pg 2000%Z; ev_call x] ++ rest /\
    probed (run_trace e) pg r /\
    ev_call x = screenshot pg (Some screenshot_path) None /\
    returned_at (run_trace e) (wait_for_timeout pg 2000%Z) /\
    count is_pause (run_trace e) = 1.
Proof.
  revert x.
  run_cases; intros x H Hx; pick_event H;
    do 3 eexists;
    (first [ exists None; eexists; split; [reflexivity | ]
           | eexists (Some _); eexists; split; [reflexivity | ] ]);
    (split; [ eexists; split; [ do 5 right; left; reflexivity | split; reflexivity ] | ]);
    (split; [reflexivity|]);
    (split; [ eexists (ev (wait_for_timeout _ 2000%Z) (inr tt)); split;
                [ repeat (first [left; reflexivity | right])
                | split; reflexivity ]
            | reflexivity ]).
Qed.

Lemma pause_before_capture_witness :
  (exists p b pg r rest,
     calls (run_trace (working None)) =
       prologue p b pg ++ branch pg r ++
       [wait_for_timeout pg 2000%Z; capture (Page 2)] ++ rest) /\
  (exists p b pg r rest,
     calls (run_trace (working (Some (ElementHandle 3)))) =
       prologue p b pg ++ branch pg r ++
       [wait_for_timeout pg 2000%Z; capture (Page 2)] ++ rest).
Proof.
  split.
  - destruct (pause_before_capture (working None)
                (ev (capture (Page 2)) (inr tt)))
      as (p & b & pg & r & rest & H & _).
    + vm_compute. tauto.
    + reflexivity.
    + exists p, b, pg, r, rest. exact H.
  - destruct (pause_before_capture (working (Some (ElementHandle 3)))
                (ev (capture (Page 2)) (inr tt)))
      as (p & b & pg & r & rest & H & _).
    + vm_compute. tauto.
    + reflexivity.
    + exists p, b, pg, r, rest. exact H.
Defined.

(** C4. When the probe finds the login button, the calls after it are, in
    this order and with nothing in between: fill "Admin ID" with "admin1",
    fill "Password" with "password123", click the button found, wait for
    "Total Requests" with the 10,000 ms limit, and then the delay, the
    screenshot and the close.  A step is made once all before it returned;
    the sequence stops only at a step that raises, and then the run fails.
    In particular an expired wait for "Total Requests" fails the run right
    there, with the wait's exception when the scope exit returns. *)
Theorem login_sequence (e : env) (pg : page) (btn : element_handle) :
  probed (run_trace e) pg (Some btn) ->
  exists p b n,
    let steps := login_steps pg btn ++ [pause pg; capture pg; close b] in
    calls (run_trace e) = prologue p b pg ++ firstn n steps ++ [aexit p] /\
    1 <= n <= 7 /\
    forallb succeeded (firstn (5 + n) (run_trace e)) = true /\
    (n = 7 \/ exists err, raised_at (run_trace e) (nth (n - 1) steps aenter) err) /\
    (forall err, raised_at (run_trace e) (nth (n - 1) steps aenter) err ->
       main e = 1%Z /\
       (exit_returned (run_trace e) -> run_result e = inl err)) /\
    (run_result e = inr tt -> n = 7) /\
    (forall err,
       raised_at (run_trace e)
         (wait_for_selector pg auth_marker (Some 10000%Z)) err ->
       n = 4 /\ main e = 1%Z /\
       (exit_returned (run_trace e) -> run_result e = inl err)).
Proof.
  revert pg btn.
  run_cases; intros pg btn (x & H & Hc & Hx); pick_event H; same;
    do 2 eexists;
    first [ exists 1; split; [reflexivity|]
          | exists 2; split; [reflexivity|]
          | exists 3; split; [reflexivity|]
          | exists 4; split; [reflexivity|]
          | exists 5; split; [reflexivity|]
          | exists 6; split; [reflexivity|]
          | exists 7; split; [reflexivity|] ];
    (split; [lia|]); (split; [reflexivity|]);
    (split; [ first [ left; reflexivity | right; eexists; found ] | ]);
    (split; [ intros err (y & Hy & Hyc & Hye); pick_event Hy; same;
              (split; [reflexivity|]);
              intros (q & z & Hz & Hzc & Hze); pick_event Hz; same;
              reflexivity | ]);
    (split; [ intros Hr; first [reflexivity | discriminate Hr] | ]);
    intros err (y & Hy & Hyc & Hye); pick_event Hy; same;
    (split; [reflexivity|]); (split; [reflexivity|]);
    intros (q & z & Hz & Hzc & Hze); pick_event Hz; same; reflexivity.
Qed.

Lemma login_sequence_witness :
  exists p b n,
    let steps := login_steps (Page 2) (ElementHandle 3) ++
                 [pause (Page 2); capture (Page 2); close b] in
    calls (run_trace (working (Some (ElementHandle 3)))) =
      prologue p b (Page 2) ++ firstn n steps ++ [aexit p] /\
    1 <= n <= 7.
Proof.
  destruct (login_sequence (working (Some (ElementHandle 3))) (Page 2)
              (ElementHandle 3))
    as (p & b & n & H & Hn & _).
  - exists (ev (query_selector (Page 2) login_button)
               (inr (Some (ElementHandle 3)))).
    vm_compute. tauto.
  - exists p, b, n. split; assumption.
Defined.

(** C9. When a fill of the run raises (the "Admin ID" or the "Password"
    input never becomes available), the login button had been found, the
    run fails (with the fill's exception when the scope exit returns)
    before the click and before any screenshot, no file is written, and
    the failing step has no class in the specification's taxonomy of
    launch, navigation, marker-timeout and capture failures. *)
Theorem fill_failure_aborts (e : env) (pg : page) (sel v : string) (err : exn) :
  raised_at (run_trace e) (fill pg sel v) err ->
  (sel = admin_id_input /\ v = "admin1" \/
   sel = password_input /\ v = "password123") /\
  (exists btn, probed (run_trace e) pg (Some btn)) /\
  main e = 1%Z /\
  (exit_returned (run_trace e) -> run_result e = inl err) /\
  (forall err', exit_raised (run_trace e) err' -> run_result e = inl err') /\
  count is_click (run_trace e) = 0 /\
  count is_screenshot (run_trace e) = 0 /\
  files_written (run_trace e) = [] /\
  spec_failure_class (fill pg sel v) = None.
Proof.
  revert pg sel v err.
  run_cases; intros pg sel v err (x & H & Hc & Hx); pick_event H; same;
    (split; [first [left; split; reflexivity | right; split; reflexivity]|]);
    (split; [ eexists; found | ]);
    (split; [reflexivity|]);
    (split; [ intros (q & z & Hz & Hzc & Hze); pick_event Hz; same;
              reflexivity | ]);
    (split; [ intros err' (q & z & Hz & Hzc & Hze); pick_event Hz; same;
              reflexivity | ]);
    repeat split; reflexivity.
Qed.

Lemma fill_failure_aborts_witness :
  let gone := TimeoutError "Timeout 30000ms exceeded." in
  let e := failing is_fill gone (Some (ElementHandle 3)) in
  main e = 1%Z /\ run_result e = inl gone /\
  count is_click (run_trace e) = 0 /\
  count is_screenshot (run_trace e) = 0 /\
  files_written (run_trace e) = [].
Proof.
  intros gone e.
  destruct (fill_failure_aborts e (Page 2) admin_id_input "admin1" gone)
    as (_ & _ & Hm & Hr & _ & Hc & Hs & Hf & _).
  - exists (ev (fill (Page 2) admin_id_input "admin1") (inl gone)).
    vm_compute. tauto.
  - split; [exact Hm|]. split; [|repeat split; assumption].
    apply Hr. exists (Playwright 0), (ev (aexit (Playwright 0)) (inr tt)).
    vm_compute. tauto.
Defined.

(** ** Further properties of the run *)

(** X1. When [__aenter__] of the Playwright scope raises, nothing else is
    done: the run is that one step, it fails with the same exception, and
    the scope, never entered, is not exited. *)
Theorem enter_failure_runs_nothing (e : env) (err : exn) :
  raised_at (run_trace e) aenter err ->
  run_trace e = [ev aenter (inl err)] /\
  run_result e = inl err /\ main e = 1%Z /\
  count is_aexit (run_trace e) = 0.
Proof.
  revert err.
  run_cases; intros err (x & H & Hc & Hx); pick_event H; same;
    repeat split; reflexivity.
Qed.

Lemma enter_failure_runs_nothing_witness :
  let down := Error "Connection closed while reading from the driver" in
  let e := failing is_aenter down None in
  run_trace e = [ev aenter (inl down)] /\
  run_result e = inl down /\ main e = 1%Z /\
  count is_aexit (run_trace e) = 0.
Proof.
  intros down e. apply (enter_failure_runs_nothing e down).
  exists (ev aenter (inl down)). vm_compute. tauto.
Defined.

(** X2. Once [__aenter__] returned, the scope is exited exactly once, as
    the last step, on the object that [__aenter__] returned; this holds when
    the launch itself fails, too. *)
Theorem entered_scope_is_exited (e : env) (x : event) (p : playwright) :
  In x (run_trace e) -> entered x = Some p ->
  count is_aexit (run_trace e) = 1 /\
  last (calls (run_trace e)) aenter = aexit p /\
  2 <= length (run_trace e).
Proof.
  revert x p.
  run_cases; intros x p H Hx; pick_event H; same;
    (split; [reflexivity|]); (split; [reflexivity|]); lia.
Qed.

Lemma entered_scope_is_exited_witness :
  let e := failing (fun c => match c with launch _ _ => true | _ => false end)
                   (Error "Executable doesn't exist") None in
  count is_aexit (run_trace e) = 1 /\
  last (calls (run_trace e)) aenter = aexit (Playwright 0) /\
  2 <= length (run_trace e).
Proof.
  intros e.
  apply (entered_scope_is_exited e (ev aenter (inr (Playwright 0))) (Playwright 0)).
  - vm_compute. tauto.
  - reflexivity.
Defined.

(** X3. The run returns exactly when no step of it raised, and that is
    exactly when the process exits with status 0. *)
Theorem returns_iff_no_step_raises (e : env) :
  (run_result e = inr tt <-> forallb succeeded (run_trace e) = true) /\
  (main e = 0%Z <-> forallb succeeded (run_trace e) = true).
Proof.
  run_cases; split; split; intros H; first [reflexivity | discriminate H].
Qed.

(** X4. A screenshot is attempted only on a page that was navigated to the
    dashboard URL and on which the "Admin Dashboard" marker had shown; and
    when the probe had found the login button, only after both fills, the
    click and the wait for "Total Requests" had returned. *)
Theorem capture_only_after_markers (e : env) (x : event) :
  In x (run_trace e) -> is_screenshot (ev_call x) = true ->
  exists pg,
    ev_call x = capture pg /\
    returned_at (run_trace e) (goto pg url) /\
    returned_at (run_trace e)
      (wait_for_selector pg dashboard_marker (Some 10000%Z)) /\
    (forall btn, probed (run_trace e) pg (Some btn) ->
       returned_at (run_trace e) (fill pg admin_id_input "admin1") /\
       returned_at (run_trace e) (fill pg password_input "password123") /\
       returned_at (run_trace e) (click btn) /\
       returned_at (run_trace e)
         (wait_for_selector pg auth_marker (Some 10000%Z))).
Proof.
  revert x.
  run_cases; intros x H Hx; pick_event H;
    eexists; (split; [reflexivity|]);
    (split; [eexists; split; [member | split; reflexivity]|]);
    (split; [eexists; split; [member | split; reflexivity]|]);
    intros btn (y & Hy & Hyc & Hya); pick_event Hy; same;
    repeat split; eexists; (split; [member | split; reflexivity]).
Qed.

Lemma capture_only_after_markers_witness :
  let e := failing is_screenshot (Error "EACCES: permission denied")
                   (Some (ElementHandle 3)) in
  exists pg,
    returned_at (run_trace e) (goto pg url) /\
    returned_at (run_trace e)
      (wait_for_selector pg dashboard_marker (Some 10000%Z)).
Proof.
  intros e.
  destruct (capture_only_after_markers e
              (ev (capture (Page 2)) (inl (Error "EACCES: permission denied"))))
    as (pg & _ & Hg & Hw & _).
  - vm_compute. tauto.
  - reflexivity.
  - exists pg. split; assumption.
Defined.

(** X5. A run that fails and yet wrote a file failed late: the screenshot
    had returned, the file is the one at the configured path, and the only
    steps that raised are [browser.close()] and the exit of the Playwright
    scope, one of which gave the run its exception. *)
Theorem failed_run_with_file_failed_late (e : env) (err : exn) :
  run_result e = inl err -> files_written (run_trace e) <> [] ->
  files_written (run_trace e) = [screenshot_path] /\
  (exists pg, returned_at (run_trace e) (capture pg)) /\
  ((exists b, raised_at (run_trace e) (close b) err) \/
   exit_raised (run_trace e) err) /\
  (forall x err', In x (run_trace e) -> ev_exn x = Some err' ->
     is_close (ev_call x) || is_aexit (ev_call x) = true).
Proof.
  revert err.
  run_cases; intros err H Hf; try discriminate H;
    try (exfalso; apply Hf; reflexivity);
    injection H as H; subst;
    (split; [reflexivity|]);
    (split; [eexists; found|]);
    (split; [ first [ right; eexists; found | left; eexists; found ] | ]);
    intros x err' Hx Hxe; pick_event Hx; reflexivity.
Qed.

Lemma failed_run_with_file_failed_late_witness :
  let gone := Error "Connection closed" in
  let e := failing is_aexit gone None in
  files_written (run_trace e) = [screenshot_path] /\
  (exists pg, returned_at (run_trace e) (capture pg)) /\
  ((exists b, raised_at (run_trace e) (close b) gone) \/
   exit_raised (run_trace e) gone).
Proof.
  intros gone e.
  destruct (failed_run_with_file_failed_late e gone) as (Hf & Hc & Hw & _).
  - reflexivity.
  - vm_compute. discriminate.
  - split; [exact Hf|]. split; [exact Hc | exact Hw].
Defined.

(** X6. Whatever the environment does, a run writes no file or the one
    file at the configured path: never another file, never a second one. *)
Theorem files_written_at_most_screenshot (e : env) :
  files_written (run_trace e) = [] \/
  files_written (run_trace e) = [screenshot_path].
Proof.
  run_cases; first [left; reflexivity | right; reflexivity].
Qed.

(** X7. The credentials are typed, the button clicked and the wait for
    "Total Requests" made only when the probe had returned a handle: any
    such call of a run is one of the four login steps on the probed page,
    and the click is on the very handle the probe returned. *)
Theorem login_steps_need_button (e : env) (c : call) :
  In c (calls (run_trace e)) -> is_login_step c = true ->
  exists pg btn,
    probed (run_trace e) pg (Some btn) /\ In c (login_steps pg btn).
Proof.
  revert c.
  run_cases; intros c H Hc; pick_event H;
    do 2 eexists;
    (split; [ eexists; split; [member | split; reflexivity]
            | cbn; repeat (first [left; reflexivity | right]) ]).
Qed.

Lemma login_steps_need_button_witness :
  let e := failing is_click (Error "Element is not attached to the DOM")
                   (Some (ElementHandle 3)) in
  exists pg btn,
    probed (run_trace e) pg (Some btn) /\
    In (click (ElementHandle 3)) (login_steps pg btn).
Proof.
  intros e. apply (login_steps_need_button e (click (ElementHandle 3))).
  - vm_compute. tauto.
  - reflexivity.
Defined.

(** X8. The run acts only on the objects it was given: the launch and the
    scope exit are on the playwright object [__aenter__] returned, the page
    is opened on and the close made on the browser [launch] returned, every
    page call is on the page [new_page] returned, and the click is on the
    handle the probe returned. *)
Theorem handles_are_those_returned (e : env) (x : event) (c : call) :
  In x (run_trace e) -> In c (calls (run_trace e)) ->
  (forall p p', entered x = Some p -> playwright_of c = Some p' -> p' = p) /\
  (forall b b', launched x = Some b -> browser_of c = Some b' -> b' = b) /\
  (forall pg pg', opened x = Some pg -> page_of c = Some pg' -> pg' = pg) /\
  (forall h h', probe_answer x = Some (Some h) -> handle_of c = Some h' -> h' = h).
Proof.
  revert x c.
  run_cases; intros x c Hx Hc; pick_event Hx;
    repeat split; intros ? ? H1 H2; try discriminate H1;
    injection H1 as H1; subst;
    pick_event Hc; congruence.
Qed.

Lemma handles_are_those_returned_witness :
  let e := working (Some (ElementHandle 3)) in
  let x := ev (launch (Playwright 0) (Some true)) (inr (Browser 1)) in
  let c := close (Browser 1) in
  In x (run_trace e) /\ In c (calls (run_trace e)) /\
  launched x = Some (Browser 1) /\ browser_of c = Some (Browser 1) /\
  Browser 1 = Browser 1.
Proof.
  intros e x c.
  assert (Hx : In x (run_trace e)) by (vm_compute; tauto).
  assert (Hc : In c (calls (run_trace e))) by (vm_compute; tauto).
  destruct (handles_are_those_returned e x c Hx Hc) as (_ & Hb & _).
  split; [exact Hx|]. split; [exact Hc|].
  split; [reflexivity|]. split; [reflexivity|].
  apply (Hb (Browser 1) (Browser 1)); reflexivity.
Defined.

(** X9. A run makes between 1 and 14 calls, each of them one of the calls
    written in the body of [run], all on one playwright object, one
    browser, one page and one element handle; a run that returns made 10
    calls (no login) or 14 (login). *)
Theorem every_call_is_scripted (e : env) :
  exists p b pg btn,
    (forall c, In c (calls (run_trace e)) -> In c (script_calls p b pg btn)) /\
    1 <= length (run_trace e) <= 14 /\
    (run_result e = inr tt ->
     length (run_trace e) = 10 \/ length (run_trace e) = 14).
Proof.
  run_cases;
    first [ match goal with o : playwright |- _ => exists o end
          | exists (Playwright 0) ];
    first [ match goal with o : browser |- _ => exists o end
          | exists (Browser 0) ];
    first [ match goal with o : page |- _ => exists o end
          | exists (Page 0) ];
    first [ match goal with o : element_handle |- _ => exists o end
          | exists (ElementHandle 0) ];
    (split; [ intros c Hc; pick_event Hc; cbn;
              repeat (first [left; reflexivity | right])
            | split; [ cbn; lia
                     | intros H; first [ discriminate H
                                       | left; reflexivity
                                       | right; reflexivity ] ] ]).
Qed.
